(** * TELOS MCP server: the context loader and the request dispatcher

    A shallow embedding of [telos-mcp/telos_mcp_server.py].  The handler
    code is translated function by function; everything the file reaches
    outside itself (the process environment, the HTTP client, the local
    file system, the base64 and UTF-8 codecs) is an oracle of the
    [World] record or of the [Builtins] class, so that every theorem is
    quantified over all their possible answers. *)

From Stdlib Require Import ZArith NArith String Ascii List.
From Stdlib Require Import Floats.SpecFloat.
From stdpp Require Import base decidable option list gmap pretty.

Set Warnings "-register-all".

(** ** Python values *)

(** A [str] is a sequence of Unicode code points. *)
Definition pystr : Type := list N.

(** The code points of an ASCII literal of the source. *)
Definition py (s : string) : pystr :=
  (λ a, N.of_nat (nat_of_ascii a)) <$> list_ascii_of_string s.

(** [bytes] *)
Definition pybytes : Type := list Byte.byte.

(** What [json] decoding yields, which is also the [Any] of the pydantic
    models: [None], [bool], [int], [float], [str], [list] and [dict] with
    [str] keys. *)
Inductive json : Type :=
  | JNone
  | JBool (b : bool)
  | JInt (z : Z)
  | JFloat (f : spec_float)
  | JStr (s : pystr)
  | JList (l : list json)
  | JDict (d : gmap pystr json).

(** [v == s] for a [str] literal [s]: only an equal [str] compares equal. *)
Definition eq_str (v : json) (s : pystr) : bool :=
  match v with
  | JStr t => bool_decide (t = s)
  | _ => false
  end.

(** [sub in s] on strings, as a proposition and as a test. *)
Definition contains (sub s : pystr) : Prop :=
  ∃ pre post, s = pre ++ sub ++ post.

Fixpoint startswith (p s : pystr) : bool :=
  match p, s with
  | [], _ => true
  | _ :: _, [] => false
  | a :: p', b :: s' => bool_decide (a = b) && startswith p' s'
  end.

Fixpoint containsb (sub s : pystr) : bool :=
  startswith sub s ||
  match s with
  | [] => false
  | _ :: s' => containsb sub s'
  end.

(** ** Exceptions and outcomes *)

(** The exception classes the modelled operations raise.  All of them
    derive from [Exception]; task cancellation and interpreter exit,
    which derive from [BaseException] only, are outside the model. *)
Inductive exn : Set :=
  | FileNotFoundError
  | PermissionError
  | IsADirectoryError
  | OSError
  | UnicodeDecodeError
  | ConnectError
  | TimeoutException
  | JSONDecodeError
  | KeyError
  | TypeError
  | ValueError
  | binascii_Error
  | AttributeError.

#[global] Instance exn_eq_dec : EqDecision exn.
Proof. solve_decision. Defined.

(** [except Exception]: every modelled class is a subclass. *)
Definition Exception (e : exn) : bool := true.

(** [except FileNotFoundError]: the class has no subclass. *)
Definition is_FileNotFoundError (e : exn) : bool :=
  bool_decide (e = FileNotFoundError).

Inductive outcome (A : Type) : Type :=
  | Returned (a : A)
  | Raised (e : exn).
Arguments Returned {A} a.
Arguments Raised {A} e.

(** Statements in sequence: the first exception raised ends the run. *)
#[global] Instance outcome_ret : MRet outcome := λ A a, Returned a.

#[global] Instance outcome_bind : MBind outcome := λ A B k o,
  match o with
  | Returned a => k a
  | Raised e => Raised e
  end.

(** ** The world outside the process *)

(** [httpx.Response]: the status line and what [response.json()] gives. *)
Record Response : Type := {
  status_code : Z;
  response_json : outcome json;
}.

Record World : Type := {
  (** [os.environ] *)
  environ : gmap pystr pystr;
  (** entering [async with httpx.AsyncClient() as client:], that is
      building the client and its [__aenter__] *)
  client_aenter : outcome ();
  (** [await client.get(url, headers=headers)] *)
  http_get : pystr → gmap pystr pystr → outcome Response;
  (** leaving the [async with] block, that is the client's [__aexit__] *)
  client_aexit : outcome ();
  (** [with open(path, "r") as f: f.read()] *)
  open_read : pystr → outcome pystr;
}.

(** Codecs and formatting of the Python runtime, total functions whose
    tables are not part of the server's source. *)
Class Builtins : Type := {
  (** [base64.b64decode(s)] on a [str] *)
  b64decode : pystr → outcome pybytes;
  (** [b.decode("utf-8")] *)
  decode_utf8 : pybytes → outcome pystr;
  (** [str(v)] of a [float], a [list] or a [dict] *)
  repr_compound : json → pystr;
}.

(** What a request does to the world, in order. *)
Inductive event : Type :=
  | Getenv (name : pystr)
  | HttpGet (url : pystr) (headers : gmap pystr pystr)
  | OpenRead (path : pystr)
  | PrintError (prefix : pystr) (e : exn).

(** ** A monad for the handlers: read the world, log events, raise *)

Definition IO (A : Type) : Type := World → list event * outcome A.

#[global] Instance IO_ret : MRet IO := λ A a _, ([], Returned a).

#[global] Instance IO_bind : MBind IO := λ A B k m w,
  match m w with
  | (t, Returned a) => let '(t', r) := k a w in (t ++ t', r)
  | (t, Raised e) => (t, Raised e)
  end.

(** Lift an outcome that costs no event. *)
Definition lift {A} (o : outcome A) : IO A := λ _, ([], o).

(** [try: body  except C as e: handler(e)] where [C] selects the classes
    caught. *)
Definition try_except {A} (body : IO A) (C : exn → bool) (handler : exn → IO A)
  : IO A := λ w,
  match body w with
  | (t, Returned a) => (t, Returned a)
  | (t, Raised e) =>
      if C e then let '(t', r) := handler e w in (t ++ t', r)
      else (t, Raised e)
  end.

Definition os_getenv (name : pystr) : IO (option pystr) := λ w,
  ([Getenv name], Returned (environ w !! name)).

Definition os_getenv_default (name dflt : pystr) : IO pystr := λ w,
  ([Getenv name], Returned (default dflt (environ w !! name))).

(** Entering and leaving the [async with] block of the client; neither
    is one of the events a trace records. *)
Definition enter_client : IO () := λ w, ([], client_aenter w).

Definition exit_client : IO () := λ w, ([], client_aexit w).

Definition client_get (url : pystr) (headers : gmap pystr pystr) : IO Response :=
  λ w, ([HttpGet url headers], http_get w url headers).

Definition read_text (path : pystr) : IO pystr := λ w,
  ([OpenRead path], open_read w path).

Definition print_error (prefix : pystr) (e : exn) : IO unit := λ _,
  ([PrintError prefix e], Returned ()).

(** The trace and the outcome of a run. *)
Definition trace {A} (m : IO A) (w : World) : list event := (m w).1.
Definition result_of {A} (m : IO A) (w : World) : outcome A := (m w).2.

(** ** Operations on decoded JSON *)

(** A dict display [{k1: v1, ...}] of the source (its keys are distinct). *)
Definition dict_of (items : list (pystr * json)) : gmap pystr json :=
  list_to_map items.

Definition dict (items : list (pystr * json)) : json :=
  JDict (dict_of items).

(** [data[key]] for a [str] key: a [dict] is looked up, anything else
    does not take a [str] subscript. *)
Definition getitem (data : json) (key : pystr) : outcome json :=
  match data with
  | JDict d =>
      match d !! key with
      | Some v => Returned v
      | None => Raised KeyError
      end
  | _ => Raised TypeError
  end.

(** [v.get(key, dflt)]: only a [dict] has the method. *)
Definition get_method (v : json) (key : pystr) (dflt : json) : outcome json :=
  match v with
  | JDict d => Returned (default dflt (d !! key))
  | _ => Raised AttributeError
  end.

Section Server.
Context `{Builtins}.

(** [base64.b64decode(v)]: a [str] is decoded, no other JSON value is
    bytes-like. *)
Definition base64_b64decode (v : json) : outcome pybytes :=
  match v with
  | JStr s => b64decode s
  | _ => Raised TypeError
  end.

(** [{v}] in an f-string, that is [format(v, "")]: a [str] is inserted as
    it is, any other value through [str(v)]. *)
Definition format_value (v : json) : pystr :=
  match v with
  | JStr s => s
  | JNone => py "None"
  | JBool true => py "True"
  | JBool false => py "False"
  | JInt z => py (pretty z)
  | JFloat _ | JList _ | JDict _ => repr_compound v
  end.

(** ** [load_telos_context] *)

Definition telos_path : pystr := py "/app/context/telos.md".

Definition no_context : pystr :=
  py "# TELOS Context" ++ [10%N] ++
  py "No personal context loaded. Please set up your TELOS file.".

Definition telos_url (telos_repo : pystr) : pystr :=
  py "https://api.github.com/repos/" ++ telos_repo ++ py "/contents/telos.md".

Definition auth_headers (github_token : pystr) : gmap pystr pystr :=
  {[ py "Authorization" := py "token " ++ github_token ]}.

(** The three statements under [if response.status_code == 200:], up to
    the value of [content]. *)
Definition decode_content (response : Response) : outcome pystr :=
  data ← response_json response;
  item ← getitem data (py "content");
  raw ← base64_b64decode item;
  decode_utf8 raw.

(** The body of the [try] block; [Some content] is the [return content]
    inside it, [None] is falling out of the [if]. *)
Definition fetch_github (github_token telos_repo : pystr) : IO (option pystr) :=
  let url := telos_url telos_repo in
  let headers := auth_headers github_token in
  response ← client_get url headers;
  if bool_decide (status_code response = 200%Z) then
    content ← lift (decode_content response);
    mret (Some content)
  else mret None.

(** The [if github_token:] block: an unset or empty token skips it.  The
    [async with] is around the [try], not inside it: what entering or
    leaving the client raises is not caught, and the client is left also
    on the way out of [return content]. *)
Definition github_tier (github_token : option pystr) (telos_repo : pystr)
  : IO (option pystr) :=
  match github_token with
  | Some (c :: cs) =>
      enter_client;;
      fetched ← try_except (fetch_github (c :: cs) telos_repo) Exception
        (λ e, print_error (py "Error loading from GitHub: ") e;; mret None);
      exit_client;;
      mret fetched
  | Some [] | None => mret None
  end.

(** The fallback to the local file. *)
Definition local_tier : IO pystr :=
  try_except (read_text telos_path) is_FileNotFoundError
    (λ _, mret no_context).

Definition load_telos_context : IO pystr :=
  github_token ← os_getenv (py "GITHUB_TOKEN");
  telos_repo ← os_getenv_default (py "TELOS_REPO")
                  (py "your-username/personal-context");
  fetched ← github_tier github_token telos_repo;
  match fetched with
  | Some content => mret content
  | None => local_tier
  end.

(** ** The request and response models *)

Record MCPRequest : Type := {
  method : pystr;
  (** [Dict[str, Any]], [{}] when the body has no [params] *)
  params : gmap pystr json;
}.

Record MCPResponse : Type := {
  (** [Any], default [None] *)
  result : json;
  (** a [dict], default [None] *)
  error : option (gmap pystr json);
}.

(** [MCPResponse(result=r)] and [MCPResponse(error=d)]. *)
Definition with_result (r : json) : MCPResponse :=
  {| result := r; error := None |}.

Definition with_error (d : gmap pystr json) : MCPResponse :=
  {| result := JNone; error := Some d |}.

(** ** [health_check] *)

Definition health_check : IO json :=
  mret (dict [(py "status", JStr (py "healthy"));
              (py "service", JStr (py "telos-mcp"))]).

(** ** [mcp_endpoint] *)

Definition load_tool_descriptor : json :=
  dict [
    (py "name", JStr (py "load_telos_context"));
    (py "description",
       JStr (py "Load personal TELOS context for decision filtering"));
    (py "inputSchema", dict [
       (py "type", JStr (py "object"));
       (py "properties", dict [
          (py "request", dict [
             (py "type", JStr (py "string"));
             (py "description",
                JStr (py "The request to filter through personal context"))
          ])
       ])
    ])
  ].

Definition filter_tool_descriptor : json :=
  dict [
    (py "name", JStr (py "apply_telos_filter"));
    (py "description",
       JStr (py "Apply TELOS context to evaluate alignment with personal mission"));
    (py "inputSchema", dict [
       (py "type", JStr (py "object"));
       (py "properties", dict [
          (py "content", dict [
             (py "type", JStr (py "string"));
             (py "description", JStr (py "Content to evaluate"))
          ]);
          (py "decision_type", dict [
             (py "type", JStr (py "string"));
             (py "description", JStr (py "Type of decision"))
          ])
       ])
    ])
  ].

Definition tools_listing : json :=
  dict [(py "tools", JList [load_tool_descriptor; filter_tool_descriptor])].

(** [context[:200]] *)
Definition first_200 (context : pystr) : pystr := take 200 context.

(** A line break and the twelve blanks that indent every line of the
    triple-quoted template. *)
Definition nl : pystr := [10%N].
Definition indent : pystr := py "            ".

(** The literal text of the f-string: before the first hole, between the
    two holes, after the second. *)
Definition template_head : pystr :=
  nl ++
  indent ++ py "TELOS-Filtered Analysis:" ++ nl ++
  indent ++ nl ++
  indent ++ py "Personal Context Applied: ".

Definition template_middle : pystr :=
  py "..." ++ nl ++
  indent ++ nl ++
  indent ++ py "Content Analysis: ".

Definition template_tail : pystr :=
  nl ++
  indent ++ nl ++
  indent ++ py "Alignment Assessment: [This would contain AI-generated alignment analysis]" ++ nl ++
  indent.

(** The f-string of the filter, [{context[:200]}] and [{content}] filled. *)
Definition filtered_response (context : pystr) (content : json) : pystr :=
  template_head ++ first_200 context ++
  template_middle ++ format_value content ++
  template_tail.

Definition method_not_found (m : pystr) : gmap pystr json :=
  dict_of [(py "code", JInt (-32601));
        (py "message", JStr (py "Method " ++ m ++ py " not found"))].

(** The handler returns an [MCPResponse], or [None] when no [return] is
    reached. *)
Definition mcp_endpoint (request : MCPRequest) : IO (option MCPResponse) :=
  if bool_decide (method request = py "tools/list") then
    mret (Some (with_result tools_listing))
  else if bool_decide (method request = py "tools/call") then
    let tool_name := default JNone (params request !! py "name") in
    let arguments := default (JDict ∅) (params request !! py "arguments") in
    if eq_str tool_name (py "load_telos_context") then
      context ← load_telos_context;
      mret (Some (with_result (dict [(py "content", JStr context)])))
    else if eq_str tool_name (py "apply_telos_filter") then
      context ← load_telos_context;
      content ← lift (get_method arguments (py "content") (JStr (py "")));
      mret (Some (with_result
        (dict [(py "filtered_content", JStr (filtered_response context content))])))
    else mret None
  else
    mret (Some (with_error (method_not_found (method request)))).

End Server.

(** ** Observations on a handler's return value *)

(** Whether the envelope carries a [result], an [error]; a handler that
    returned [None] carries neither. *)
Definition result_populated (r : option MCPResponse) : bool :=
  match r with
  | Some {| result := JNone |} | None => false
  | Some _ => true
  end.

Definition error_populated (r : option MCPResponse) : bool :=
  match r with
  | Some {| error := Some _ |} => true
  | _ => false
  end.

Definition exactly_one_populated (r : option MCPResponse) : bool :=
  xorb (result_populated r) (error_populated r).

(** The names of the descriptors under the [tools] key of a listing. *)
Definition tool_names (listing : json) : list (option json) :=
  match listing with
  | JDict d =>
      match d !! py "tools" with
      | Some (JList ts) =>
          (λ t, match t with JDict td => td !! py "name" | _ => None end) <$> ts
      | _ => []
      end
  | _ => []
  end.

(** ** What the remote tier can answer *)

Section Remote.
Context `{Builtins}.

(** The value of [telos_repo]. *)
Definition configured_repo (w : World) : pystr :=
  default (py "your-username/personal-context") (environ w !! py "TELOS_REPO").

(** The answer to the one request [load_telos_context] sends when the
    token is [tok]. *)
Definition github_answer (w : World) (tok : pystr) : outcome Response :=
  http_get w (telos_url (configured_repo w)) (auth_headers tok).

(** The client is entered and left without an exception. *)
Definition client_works (w : World) : Prop :=
  client_aenter w = Returned () ∧ client_aexit w = Returned ().

(** A credential is configured: [GITHUB_TOKEN] is a non-empty string. *)
Definition has_credential (w : World) : Prop :=
  ∃ tok, environ w !! py "GITHUB_TOKEN" = Some tok ∧ tok ≠ [].

(** The ways the remote fetch fails: no credential in the environment
    (unset, or set to the empty string, which [if github_token:] treats
    alike) or, with a client that works, an exception of the request, a
    status outside 2xx, a body that does not decode. *)
Inductive remote_fetch_fails (w : World) : Prop :=
  | missing_credential :
      environ w !! py "GITHUB_TOKEN" = None →
      remote_fetch_fails w
  | empty_credential :
      environ w !! py "GITHUB_TOKEN" = Some (py "") →
      remote_fetch_fails w
  | network_error tok e :
      environ w !! py "GITHUB_TOKEN" = Some tok →
      client_works w →
      github_answer w tok = Raised e →
      remote_fetch_fails w
  | bad_status tok resp :
      environ w !! py "GITHUB_TOKEN" = Some tok →
      client_works w →
      github_answer w tok = Returned resp →
      ¬ (200 ≤ status_code resp < 300)%Z →
      remote_fetch_fails w
  | decode_failure tok resp e :
      environ w !! py "GITHUB_TOKEN" = Some tok →
      client_works w →
      github_answer w tok = Returned resp →
      status_code resp = 200%Z →
      decode_content resp = Raised e →
      remote_fetch_fails w.

End Remote.

(** ** Worlds and requests to run the handlers on *)

(** Test doubles of the codecs: ASCII bytes decode as UTF-8 decodes them,
    and one base64 text is known. *)
Definition test_builtins : Builtins := {|
  b64decode s :=
    if bool_decide (s = py "aGk=") then Returned [Byte.x68; Byte.x69]
    else Raised binascii_Error;
  decode_utf8 b :=
    if forallb (λ x, (Byte.to_N x <? 128)%N) b then Returned (Byte.to_N <$> b)
    else Raised UnicodeDecodeError;
  repr_compound _ := py "<repr>";
|}.

(** A file system with at most the context file. *)
Definition only_file (content : outcome pystr) (path : pystr) : outcome pystr :=
  if bool_decide (path = telos_path) then content else Raised FileNotFoundError.

Definition with_token : gmap pystr pystr :=
  {[ py "GITHUB_TOKEN" := py "ghp_x" ]}.

(** No credential, no file. *)
Definition world_bare : World := {|
  environ := ∅;
  client_aenter := Returned ();
  http_get _ _ := Raised ConnectError;
  client_aexit := Returned ();
  open_read := only_file (Raised FileNotFoundError);
|}.

(** No credential, a context file the process may not read. *)
Definition world_denied : World := {|
  environ := ∅;
  client_aenter := Returned ();
  http_get _ _ := Raised ConnectError;
  client_aexit := Returned ();
  open_read := only_file (Raised PermissionError);
|}.

(** A credential, no network, a context file on disk. *)
Definition world_offline : World := {|
  environ := with_token;
  client_aenter := Returned ();
  http_get _ _ := Raised ConnectError;
  client_aexit := Returned ();
  open_read := only_file (Returned (py "# My mission"));
|}.

(** A credential, no network, a context file the process may not read. *)
Definition world_offline_denied : World := {|
  environ := with_token;
  client_aenter := Returned ();
  http_get _ _ := Raised ConnectError;
  client_aexit := Returned ();
  open_read := only_file (Raised PermissionError);
|}.

(** A credential and a repository that serves the file. *)
Definition world_github : World := {|
  environ := <[ py "TELOS_REPO" := py "me/ctx" ]> with_token;
  client_aenter := Returned ();
  http_get url headers :=
    if bool_decide (url = py "https://api.github.com/repos/me/ctx/contents/telos.md")
       && bool_decide (headers !! py "Authorization" = Some (py "token ghp_x"))
    then Returned {| status_code := 200;
                     response_json := Returned (dict [(py "content", JStr (py "aGk="))]) |}
    else Returned {| status_code := 404; response_json := Raised JSONDecodeError |};
  client_aexit := Returned ();
  open_read := only_file (Raised FileNotFoundError);
|}.

(** [{"method": "tools/call", "params": {"name": name, "arguments": arguments}}] *)
Definition call_request (name : pystr) (arguments : json) : MCPRequest := {|
  method := py "tools/call";
  params := dict_of [(py "name", JStr name); (py "arguments", arguments)];
|}.

(** [{"method": m}] *)
Definition bare_request (m : pystr) : MCPRequest :=
  {| method := m; params := ∅ |}.

Definition load_request : MCPRequest :=
  call_request (py "load_telos_context") (JDict ∅).

Definition filter_request (content : json) : MCPRequest :=
  call_request (py "apply_telos_filter") (dict [(py "content", content)]).

Definition unknown_tool_request : MCPRequest :=
  call_request (py "no_such_tool") (JDict ∅).

(** ** Reading a trace *)

(** The requests a trace sends, the files it opens, the errors it prints. *)
Definition requests (t : list event) : list (pystr * gmap pystr pystr) :=
  omap (λ ev, match ev with HttpGet url headers => Some (url, headers) | _ => None end) t.

Definition files_opened (t : list event) : list pystr :=
  omap (λ ev, match ev with OpenRead path => Some path | _ => None end) t.

Definition errors_printed (t : list event) : list exn :=
  omap (λ ev, match ev with PrintError _ e => Some e | _ => None end) t.

(** The two reads of the environment every load starts with. *)
Definition reads_environment : list event :=
  [Getenv (py "GITHUB_TOKEN"); Getenv (py "TELOS_REPO")].

(** The request of a load whose token is [tok]. *)
Definition github_request (w : World) (tok : pystr) : event :=
  HttpGet (telos_url (configured_repo w)) (auth_headers tok).

Definition prints_github_error (e : exn) : event :=
  PrintError (py "Error loading from GitHub: ") e.

(** Leaving the client after the [try] block: what [__aexit__] raises
    ends the load there, otherwise the local tier follows. *)
Definition then_local_file (w : World) (t : list event)
  : list event * outcome pystr :=
  match client_aexit w with
  | Returned _ => (t ++ [OpenRead telos_path], result_of local_tier w)
  | Raised e => (t, Raised e)
  end.

(** ** More worlds and requests *)

(** A credential, a repository that answers 204 with no body, a context
    file on disk. *)
Definition world_no_content : World := {|
  environ := with_token;
  client_aenter := Returned ();
  http_get _ _ := Returned {| status_code := 204; response_json := Raised JSONDecodeError |};
  client_aexit := Returned ();
  open_read := only_file (Returned (py "# My mission"));
|}.

(** [GITHUB_TOKEN=] in the environment, no file. *)
Definition world_empty_token : World := {|
  environ := {[ py "GITHUB_TOKEN" := py "" ]};
  client_aenter := Returned ();
  http_get _ _ := Raised ConnectError;
  client_aexit := Returned ();
  open_read := only_file (Raised FileNotFoundError);
|}.

(** A credential, a proxy setting the client refuses when it is built, a
    context file on disk. *)
Definition world_bad_proxy : World := {|
  environ := with_token;
  client_aenter := Raised ValueError;
  http_get _ _ := Raised ConnectError;
  client_aexit := Returned ();
  open_read := only_file (Returned (py "# My mission"));
|}.

(** A credential, a repository that answers 204, a client that raises
    when it is closed, a context file on disk. *)
Definition world_bad_close : World := {|
  environ := with_token;
  client_aenter := Returned ();
  http_get _ _ := Returned {| status_code := 204; response_json := Raised JSONDecodeError |};
  client_aexit := Raised OSError;
  open_read := only_file (Returned (py "# My mission"));
|}.

(** The answer of [world_github] to the loader. *)
Definition telos_response : Response := {|
  status_code := 200;
  response_json := Returned (dict [(py "content", JStr (py "aGk="))]);
|}.

(** A filter request with both declared arguments. *)
Definition typed_filter_request (content decision_type : json) : MCPRequest :=
  call_request (py "apply_telos_filter")
    (dict [(py "content", content); (py "decision_type", decision_type)]).

(** A context of exactly 200 characters. *)
Definition long_context : pystr := replicate 200 120%N.

(** * Properties *)

(** ** Running the monad *)

Section Run.
Context {A B : Type}.
Implicit Types (m : IO A) (k : A → IO B) (w : World).

Lemma result_of_bind m k w :
  result_of (m ≫= k) w =
  match result_of m w with
  | Returned a => result_of (k a) w
  | Raised e => Raised e
  end.
Proof.
  unfold result_of, mbind, IO_bind.
  destruct (m w) as [t [a|e]]; simpl; [|done].
  by destruct (k a w).
Qed.

Lemma result_of_try_except m (C : exn → bool) (h : exn → IO A) w :
  result_of (try_except m C h) w =
  match result_of m w with
  | Returned a => Returned a
  | Raised e => if C e then result_of (h e) w else Raised e
  end.
Proof.
  unfold result_of, try_except.
  destruct (m w) as [t [a|e]]; simpl; [done|].
  destruct (C e); [|done]. by destruct (h e w).
Qed.

End Run.

Lemma result_of_lift {A} (o : outcome A) w : result_of (lift o) w = o.
Proof. done. Qed.

(** ** The two tiers of the loader *)

Section Loader.
Context `{Builtins}.
Implicit Types (w : World) (tok repo s : pystr).

(** The local tier returns the file, turns a missing file into the
    placeholder, and lets any other exception through. *)
Lemma local_tier_result w :
  result_of local_tier w =
  match open_read w telos_path with
  | Returned s => Returned s
  | Raised e => if is_FileNotFoundError e then Returned no_context else Raised e
  end.
Proof.
  unfold local_tier. rewrite result_of_try_except.
  unfold result_of, read_text; simpl.
  destruct (open_read w telos_path) as [s|e]; [done|].
  by destruct (is_FileNotFoundError e).
Qed.

Lemma fetch_github_result tok repo w :
  result_of (fetch_github tok repo) w =
  match http_get w (telos_url repo) (auth_headers tok) with
  | Returned resp =>
      if bool_decide (status_code resp = 200%Z) then
        match decode_content resp with
        | Returned content => Returned (Some content)
        | Raised e => Raised e
        end
      else Returned None
  | Raised e => Raised e
  end.
Proof.
  unfold fetch_github. rewrite result_of_bind.
  unfold result_of at 1, client_get; simpl.
  destruct (http_get w _ _) as [resp|e]; [|done].
  case_bool_decide; [|done].
  rewrite result_of_bind, result_of_lift.
  by destruct (decode_content resp).
Qed.

(** [except Exception] absorbs whatever the [try] block raises. *)
Lemma try_block_returns tok repo w :
  ∃ fetched,
    result_of (try_except (fetch_github tok repo) Exception
      (λ e, print_error (py "Error loading from GitHub: ") e;; mret None)) w
    = Returned fetched.
Proof.
  rewrite result_of_try_except, fetch_github_result.
  destruct (http_get w _ _) as [resp|e]; [|by eexists].
  case_bool_decide; [|by eexists].
  destruct (decode_content resp); by eexists.
Qed.

(** With a token the remote tier raises what entering or leaving the
    client raises, and otherwise hands over what the [try] block left. *)
Lemma github_tier_result c cs repo w :
  result_of (github_tier (Some (c :: cs)) repo) w =
  match client_aenter w with
  | Returned _ =>
      match result_of (try_except (fetch_github (c :: cs) repo) Exception
              (λ e, print_error (py "Error loading from GitHub: ") e;; mret None)) w with
      | Returned fetched =>
          match client_aexit w with
          | Returned _ => Returned fetched
          | Raised e => Raised e
          end
      | Raised e => Raised e
      end
  | Raised e => Raised e
  end.
Proof.
  unfold github_tier. rewrite result_of_bind.
  unfold result_of at 1, enter_client; simpl.
  destruct (client_aenter w) as [[]|e]; [|done].
  rewrite result_of_bind.
  destruct (result_of (try_except _ _ _) w) as [fetched|e]; [|done].
  rewrite result_of_bind. unfold result_of at 1, exit_client; simpl.
  by destruct (client_aexit w) as [[]|e].
Qed.

(** When the client works the remote tier always hands over, with the
    content or with nothing; so it does without a credential. *)
Lemma github_tier_returns (github_token : option pystr) repo w :
  client_works w →
  ∃ fetched, result_of (github_tier github_token repo) w = Returned fetched.
Proof.
  intros [Henter Hexit].
  destruct github_token as [[|c cs]|]; [by eexists| |by eexists].
  rewrite github_tier_result, Henter, Hexit.
  destruct (try_block_returns (c :: cs) repo w) as [fetched ->]. by eexists.
Qed.

Lemma load_telos_context_result w :
  result_of load_telos_context w =
  match result_of (github_tier (environ w !! py "GITHUB_TOKEN") (configured_repo w)) w with
  | Returned (Some content) => Returned content
  | Returned None => result_of local_tier w
  | Raised e => Raised e
  end.
Proof.
  unfold load_telos_context.
  rewrite result_of_bind. unfold result_of at 1, os_getenv; simpl.
  rewrite result_of_bind. unfold result_of at 1, os_getenv_default; simpl.
  rewrite result_of_bind. fold (configured_repo w).
  destruct (result_of (github_tier _ _) w) as [[content|]|e]; done.
Qed.

(** Each kind of failure leaves the remote tier empty-handed. *)
Lemma github_tier_fails w :
  remote_fetch_fails w →
  result_of (github_tier (environ w !! py "GITHUB_TOKEN") (configured_repo w)) w
  = Returned None.
Proof.
  intros [Htok|Htok|tok e Htok [Henter Hexit] Hget
         |tok resp Htok [Henter Hexit] Hget Hstatus
         |tok resp e Htok [Henter Hexit] Hget Hstatus Hdecode];
    rewrite Htok; try done;
    (destruct tok as [|c cs]; [done|]);
    rewrite github_tier_result, Henter, Hexit;
    rewrite result_of_try_except, fetch_github_result;
    unfold github_answer in Hget; rewrite Hget.
  - done.
  - rewrite bool_decide_eq_false_2; [done|]. intros Heq. apply Hstatus. lia.
  - rewrite bool_decide_eq_true_2 by done. by rewrite Hdecode.
Qed.

Lemma load_telos_context_after_failure w :
  remote_fetch_fails w →
  result_of load_telos_context w = result_of local_tier w.
Proof.
  intros Hfail. by rewrite load_telos_context_result, github_tier_fails.
Qed.

(** An error of the local read other than a missing file reaches the
    caller. *)
Lemma load_telos_context_local_error w e :
  remote_fetch_fails w →
  open_read w telos_path = Raised e →
  e ≠ FileNotFoundError →
  result_of load_telos_context w = Raised e.
Proof.
  intros Hfail Hread Hne.
  rewrite (load_telos_context_after_failure w Hfail), local_tier_result, Hread.
  unfold is_FileNotFoundError. by rewrite bool_decide_eq_false_2.
Qed.

End Loader.

(** C1 (amended).  [load_telos_context] returns a string and raises
    nothing, whatever the environment holds and whatever the request is
    answered, as long as the client, where a credential makes the loader
    use one, is entered and left without an exception, and reading the
    local file either succeeds or fails with [FileNotFoundError]: every
    exception of the request, every other status, every body that does
    not decode and a missing file degrade to a fallback value. *)
Theorem load_telos_context_returns `{Builtins} (w : World) :
  (has_credential w → client_works w) →
  (∀ e, open_read w telos_path = Raised e → e = FileNotFoundError) →
  ∃ s : pystr, result_of load_telos_context w = Returned s.
Proof.
  intros Hclient Hfile. rewrite load_telos_context_result.
  assert (∃ fetched,
            result_of (github_tier (environ w !! py "GITHUB_TOKEN")
                         (configured_repo w)) w = Returned fetched) as Htier.
  { destruct (environ w !! py "GITHUB_TOKEN") as [[|c cs]|] eqn:Htok;
      [by eexists| |by eexists].
    apply github_tier_returns, Hclient. by exists (c :: cs). }
  destruct Htier as [[content|] ->]; [by eexists|].
  rewrite local_tier_result.
  destruct (open_read w telos_path) as [s|e] eqn:Hread; [by eexists|].
  rewrite (Hfile e eq_refl). by eexists.
Qed.

(** C7 (amended).  When the remote fetch fails in one of the ways of
    [remote_fetch_fails] (no credential or, with a client that is entered
    and left without an exception, an exception of the request, a status
    outside 2xx, a body that does not decode) that failure is not raised:
    the loader goes on to the local tier and its outcome is that tier's,
    namely the file's contents when the read succeeds and the placeholder
    when the file is missing; it then raises only what the local read
    raises other than [FileNotFoundError]. *)
Theorem remote_failure_falls_back `{Builtins} (w : World) :
  remote_fetch_fails w →
  result_of load_telos_context w = result_of local_tier w ∧
  (∀ s, open_read w telos_path = Returned s →
        result_of load_telos_context w = Returned s) ∧
  (open_read w telos_path = Raised FileNotFoundError →
        result_of load_telos_context w = Returned no_context) ∧
  (∀ e, result_of load_telos_context w = Raised e →
        open_read w telos_path = Raised e ∧ e ≠ FileNotFoundError).
Proof.
  intros Hfail. rewrite (load_telos_context_after_failure w Hfail).
  rewrite local_tier_result. split_and!.
  - done.
  - by intros s ->.
  - by intros ->.
  - intros e. destruct (open_read w telos_path) as [s|e']; [done|].
    unfold is_FileNotFoundError. case_bool_decide; [done|].
    by intros [= ->].
Qed.

(** ** The dispatcher, branch by branch *)

Lemma eq_str_true v s : eq_str v s = true ↔ v = JStr s.
Proof.
  destruct v; simpl; try (split; [done|congruence]).
  rewrite bool_decide_eq_true. split; congruence.
Qed.

Lemma eq_str_name_false (name : option json) s :
  name ≠ Some (JStr s) → eq_str (default JNone name) s = false.
Proof.
  intros Hne. apply not_true_is_false. rewrite eq_str_true.
  destruct name; simpl; congruence.
Qed.

Lemma eq_str_same s : eq_str (JStr s) s = true.
Proof. by apply eq_str_true. Qed.

Lemma eq_str_other s t : s ≠ t → eq_str (JStr s) t = false.
Proof. intros Hne. apply not_true_is_false. rewrite eq_str_true. congruence. Qed.

Lemma call_is_not_list : py "tools/call" ≠ py "tools/list".
Proof. intros Heq. vm_compute in Heq. discriminate Heq. Qed.

Lemma filter_is_not_load : py "apply_telos_filter" ≠ py "load_telos_context".
Proof. intros Heq. vm_compute in Heq. discriminate Heq. Qed.

Section Dispatcher.
Context `{Builtins}.
Implicit Types (w : World) (request : MCPRequest).

Lemma mcp_endpoint_list request :
  method request = py "tools/list" →
  mcp_endpoint request = mret (Some (with_result tools_listing)).
Proof.
  intros Hm. unfold mcp_endpoint. by rewrite bool_decide_eq_true_2.
Qed.

Lemma mcp_endpoint_other request :
  method request ≠ py "tools/list" →
  method request ≠ py "tools/call" →
  mcp_endpoint request =
  mret (Some (with_error (method_not_found (method request)))).
Proof.
  intros Hl Hc. unfold mcp_endpoint.
  by rewrite !bool_decide_eq_false_2.
Qed.

(** A call that names neither tool runs off the end of the handler. *)
Lemma mcp_endpoint_no_tool request :
  method request = py "tools/call" →
  params request !! py "name" ≠ Some (JStr (py "load_telos_context")) →
  params request !! py "name" ≠ Some (JStr (py "apply_telos_filter")) →
  mcp_endpoint request = mret None.
Proof.
  intros Hm Hload Hfilter. unfold mcp_endpoint. rewrite Hm.
  rewrite (bool_decide_eq_false_2 _ call_is_not_list).
  rewrite bool_decide_eq_true_2 by done.
  by rewrite !eq_str_name_false.
Qed.

Lemma mcp_endpoint_load_tool request :
  method request = py "tools/call" →
  params request !! py "name" = Some (JStr (py "load_telos_context")) →
  mcp_endpoint request =
  (context ← load_telos_context;
   mret (Some (with_result (dict [(py "content", JStr context)])))).
Proof.
  intros Hm Hname. unfold mcp_endpoint. rewrite Hm, Hname.
  rewrite (bool_decide_eq_false_2 _ call_is_not_list).
  rewrite bool_decide_eq_true_2 by done.
  change (default JNone (Some ?v)) with v. cbv beta zeta.
  by rewrite eq_str_same.
Qed.

Lemma mcp_endpoint_filter_tool request :
  method request = py "tools/call" →
  params request !! py "name" = Some (JStr (py "apply_telos_filter")) →
  mcp_endpoint request =
  (context ← load_telos_context;
   content ← lift (get_method (default (JDict ∅) (params request !! py "arguments"))
                              (py "content") (JStr (py "")));
   mret (Some (with_result
     (dict [(py "filtered_content", JStr (filtered_response context content))])))).
Proof.
  intros Hm Hname. unfold mcp_endpoint. rewrite Hm, Hname.
  rewrite (bool_decide_eq_false_2 _ call_is_not_list).
  rewrite bool_decide_eq_true_2 by done.
  change (default JNone (Some ?v)) with v. cbv beta zeta.
  by rewrite (eq_str_other _ _ filter_is_not_load), eq_str_same.
Qed.


(** Whatever the handler returns is [None] or an envelope with exactly
    one of its two fields set. *)
Lemma mcp_endpoint_envelope request w r :
  result_of (mcp_endpoint request) w = Returned r →
  r = None ∨ exactly_one_populated r = true.
Proof.
  unfold mcp_endpoint.
  repeat case_bool_decide;
    [|destruct (eq_str _ (py "load_telos_context"));
      [|destruct (eq_str _ (py "apply_telos_filter"))]|].
  - intros [= <-]. by right.
  - rewrite result_of_bind.
    destruct (result_of load_telos_context w); [|done].
    intros [= <-]. by right.
  - rewrite result_of_bind.
    destruct (result_of load_telos_context w); [|done].
    rewrite result_of_bind, result_of_lift.
    destruct (get_method _ _ _); [|done].
    intros [= <-]. by right.
  - intros [= <-]. by left.
  - intros [= <-]. by right.
Qed.

End Dispatcher.

(** ** Substrings and the template *)

Lemma contains_middle (pre sub post : pystr) : contains sub (pre ++ sub ++ post).
Proof. by exists pre, post. Qed.

Lemma startswith_spec (p s : pystr) :
  startswith p s = true ↔ ∃ post, s = p ++ post.
Proof.
  revert s. induction p as [|a p IH]; intros s; simpl.
  { split; [by exists s|done]. }
  destruct s as [|b s]; simpl.
  { split; [done|by intros [post [=]]]. }
  rewrite andb_true_iff, bool_decide_eq_true, IH. split.
  - intros [-> [post ->]]. by exists post.
  - intros [post [= -> ->]]. split; [done|by exists post].
Qed.

Lemma containsb_spec (sub s : pystr) :
  containsb sub s = true ↔ contains sub s.
Proof.
  unfold contains. induction s as [|b s IH]; simpl.
  - rewrite orb_false_r, startswith_spec. split.
    + intros [post Hs]. by exists [], post.
    + intros [[|c pre] [post Hs]]; [by exists post|done].
  - rewrite orb_true_iff, startswith_spec, IH. split.
    + intros [[post Hs]|[pre [post Hs]]].
      * by exists [], post.
      * exists (b :: pre), post. by rewrite Hs.
    + intros [[|c pre] [post Hs]].
      * left. by exists post.
      * right. injection Hs as -> Hs. by exists pre, post.
Qed.

Lemma first_200_length (context : pystr) :
  length (first_200 context) = 200 `min` length context.
Proof. apply length_take. Qed.

Lemma first_200_prefix (context : pystr) : first_200 context `prefix_of` context.
Proof. apply prefix_take. Qed.

Section Template.
Context `{Builtins}.



End Template.

(** ** The claims about the dispatcher *)

(** C2 (the code departs from it).  The envelope should carry exactly one
    of [result] and [error]; a [tools/call] request naming an unknown tool
    returns from the handler without an envelope: neither field is set.
    Every other return does carry exactly one
    ([mcp_endpoint_envelope]). *)
Theorem unknown_tool_breaks_envelope `{Builtins} (w : World) :
  mcp_endpoint unknown_tool_request w = ([], Returned None) ∧
  exactly_one_populated None = false.
Proof. split; [|done]. by rewrite mcp_endpoint_no_tool. Qed.

(** C3.  A [tools/call] request whose [params.name] is neither
    [load_telos_context] nor [apply_telos_filter] touches nothing and
    comes back empty: the handler runs off its end and returns [None], so
    that neither [result] nor [error] is populated. *)
Theorem unknown_tool_empty_envelope `{Builtins} (w : World) (request : MCPRequest) :
  method request = py "tools/call" →
  params request !! py "name" ≠ Some (JStr (py "load_telos_context")) →
  params request !! py "name" ≠ Some (JStr (py "apply_telos_filter")) →
  mcp_endpoint request w = ([], Returned None) ∧
  result_populated None = false ∧ error_populated None = false.
Proof.
  intros Hm Hload Hfilter. by rewrite mcp_endpoint_no_tool.
Qed.

(** C4.  A request whose method [M] is neither [tools/list] nor
    [tools/call] is answered, without touching the world, by an envelope
    with [result] [None] and [error] the dict with [code] -32601 and
    [message] ["Method M not found"], which contains [M]. *)
Theorem unknown_method_error `{Builtins} (w : World) (request : MCPRequest) :
  method request ≠ py "tools/list" →
  method request ≠ py "tools/call" →
  ∃ err message,
    mcp_endpoint request w
      = ([], Returned (Some {| result := JNone; error := Some err |})) ∧
    err = dict_of [(py "code", JInt (-32601)); (py "message", JStr message)] ∧
    err !! py "code" = Some (JInt (-32601)) ∧
    err !! py "message" = Some (JStr message) ∧
    message = py "Method " ++ method request ++ py " not found" ∧
    contains (method request) message.
Proof.
  intros Hl Hc. eexists _, _.
  rewrite (mcp_endpoint_other _ Hl Hc).
  split_and!; try reflexivity.
  apply contains_middle.
Qed.



(** C8.  A [tools/list] request, whatever its [params], is answered
    without any event (no environment read, no network call, no file
    access) by the same envelope in every world: [result] lists two
    descriptors, named [load_telos_context] and [apply_telos_filter], and
    [error] is [None]. *)
Theorem tools_list_static `{Builtins} (w : World) (request : MCPRequest) :
  method request = py "tools/list" →
  mcp_endpoint request w
    = ([], Returned (Some {| result := tools_listing; error := None |})) ∧
  tool_names tools_listing
    = [Some (JStr (py "load_telos_context")); Some (JStr (py "apply_telos_filter"))].
Proof.
  intros Hm. by rewrite (mcp_endpoint_list _ Hm).
Qed.

(** C9.  A [tools/call] request whose [params] has no [name] key reads
    the tool name as [None], raises nothing and does what a request with an
    unknown tool name does: it returns from the handler empty-handed. *)
Theorem call_without_name `{Builtins} (w : World) (request unknown : MCPRequest) :
  method request = py "tools/call" →
  params request !! py "name" = None →
  method unknown = py "tools/call" →
  params unknown !! py "name" ≠ Some (JStr (py "load_telos_context")) →
  params unknown !! py "name" ≠ Some (JStr (py "apply_telos_filter")) →
  default JNone (params request !! py "name") = JNone ∧
  mcp_endpoint request w = ([], Returned None) ∧
  mcp_endpoint request w = mcp_endpoint unknown w.
Proof.
  intros Hm Hname Hm' Hload Hfilter.
  rewrite (mcp_endpoint_no_tool unknown) by done.
  rewrite (mcp_endpoint_no_tool request) by (by rewrite ?Hname).
  by rewrite Hname.
Qed.


(** ** The loader, event by event *)

Section LoaderRuns.
Context `{Builtins}.
Implicit Types (w : World) (tok : pystr).

Lemma local_tier_run w :
  local_tier w = ([OpenRead telos_path], result_of local_tier w).
Proof.
  unfold result_of, local_tier, try_except, read_text.
  destruct (open_read w telos_path) as [s|e]; [done|].
  by destruct (is_FileNotFoundError e).
Qed.

(** Every run of the loader, by what the world answers. *)
Lemma load_telos_context_run w (github_token : option pystr) :
  environ w !! py "GITHUB_TOKEN" = github_token →
  load_telos_context w =
  match github_token with
  | Some (c :: cs) =>
      let tok := c :: cs in
      match client_aenter w with
      | Returned _ =>
          match github_answer w tok with
          | Returned resp =>
              if bool_decide (status_code resp = 200%Z) then
                match decode_content resp with
                | Returned content =>
                    (reads_environment ++ [github_request w tok],
                     match client_aexit w with
                     | Returned _ => Returned content
                     | Raised e => Raised e
                     end)
                | Raised e =>
                    then_local_file w
                      (reads_environment ++
                         [github_request w tok; prints_github_error e])
                end
              else
                then_local_file w (reads_environment ++ [github_request w tok])
          | Raised e =>
              then_local_file w
                (reads_environment ++
                   [github_request w tok; prints_github_error e])
          end
      | Raised e => (reads_environment, Raised e)
      end
  | _ => (reads_environment ++ [OpenRead telos_path], result_of local_tier w)
  end.
Proof.
  intros Htok.
  unfold load_telos_context, mbind, IO_bind, os_getenv, os_getenv_default.
  fold (configured_repo w). rewrite Htok.
  destruct github_token as [[|c cs]|]; simpl;
    try (by rewrite local_tier_run).
  unfold mbind, IO_bind, enter_client, exit_client, then_local_file.
  destruct (client_aenter w) as [[]|e0]; simpl; [|done].
  unfold try_except, fetch_github, mbind, IO_bind, client_get, github_answer.
  destruct (http_get w _ _) as [resp|e]; simpl.
  - case_bool_decide; simpl.
    + unfold lift. destruct (decode_content resp); simpl.
      * by destruct (client_aexit w) as [[]|e1].
      * destruct (client_aexit w) as [[]|e1]; simpl; [|done].
        by rewrite local_tier_run.
    + destruct (client_aexit w) as [[]|e1]; simpl; [|done].
      by rewrite local_tier_run.
  - destruct (client_aexit w) as [[]|e1]; simpl; [|done].
    by rewrite local_tier_run.
Qed.

End LoaderRuns.

(** X1.  With a non-empty token, a client that is entered and left
    without an exception, a 200 answer and a body that decodes, the loader
    returns the decoded content after two reads of the environment and
    one request: the local file is not opened, whatever it holds, and
    nothing is printed. *)
Theorem remote_success_skips_file `{Builtins} (w : World) (tok : pystr)
    (resp : Response) (content : pystr) :
  environ w !! py "GITHUB_TOKEN" = Some tok →
  tok ≠ [] →
  client_works w →
  github_answer w tok = Returned resp →
  status_code resp = 200%Z →
  decode_content resp = Returned content →
  load_telos_context w
    = ([Getenv (py "GITHUB_TOKEN"); Getenv (py "TELOS_REPO");
        HttpGet (telos_url (configured_repo w)) (auth_headers tok)],
       Returned content) ∧
  files_opened (trace load_telos_context w) = [].
Proof.
  intros Htok Hne [Henter Hexit] Hget Hstatus Hdecode.
  assert (load_telos_context w
          = (reads_environment ++ [github_request w tok], Returned content)) as Hrun.
  { rewrite (load_telos_context_run w _ Htok). destruct tok as [|c cs]; [done|].
    simpl. rewrite Henter, Hget, bool_decide_eq_true_2 by done.
    by rewrite Hdecode, Hexit. }
  unfold trace. by rewrite Hrun.
Qed.

(** X2.  Only status 200 is taken: with a client that is entered and
    left without an exception and any other status, 201 or 204 as much as
    404, the body is not looked at, nothing is printed, and the loader
    opens the local file and ends as the local tier does. *)
Theorem other_status_falls_back_silently `{Builtins} (w : World) (tok : pystr)
    (resp : Response) :
  environ w !! py "GITHUB_TOKEN" = Some tok →
  tok ≠ [] →
  client_works w →
  github_answer w tok = Returned resp →
  status_code resp ≠ 200%Z →
  load_telos_context w
    = ([Getenv (py "GITHUB_TOKEN"); Getenv (py "TELOS_REPO");
        HttpGet (telos_url (configured_repo w)) (auth_headers tok);
        OpenRead telos_path],
       result_of local_tier w) ∧
  errors_printed (trace load_telos_context w) = [].
Proof.
  intros Htok Hne [Henter Hexit] Hget Hstatus.
  assert (load_telos_context w
          = (reads_environment ++ [github_request w tok; OpenRead telos_path],
             result_of local_tier w)) as Hrun.
  { rewrite (load_telos_context_run w _ Htok). destruct tok as [|c cs]; [done|].
    simpl. rewrite Henter, Hget, bool_decide_eq_false_2 by done.
    unfold then_local_file. by rewrite Hexit. }
  unfold trace. by rewrite Hrun.
Qed.

(** X3.  With a client that is entered and left without an exception,
    an exception inside the [try] block, raised by the request or by
    decoding a 200 answer, is printed once behind the prefix
    ["Error loading from GitHub: "]; then the local file is opened and the
    loader ends as the local tier does. *)
Theorem remote_exception_printed_then_file `{Builtins} (w : World) (tok : pystr)
    (e : exn) :
  environ w !! py "GITHUB_TOKEN" = Some tok →
  tok ≠ [] →
  client_works w →
  (github_answer w tok = Raised e ∨
   ∃ resp, github_answer w tok = Returned resp ∧
           status_code resp = 200%Z ∧ decode_content resp = Raised e) →
  load_telos_context w
    = ([Getenv (py "GITHUB_TOKEN"); Getenv (py "TELOS_REPO");
        HttpGet (telos_url (configured_repo w)) (auth_headers tok);
        PrintError (py "Error loading from GitHub: ") e;
        OpenRead telos_path],
       result_of local_tier w).
Proof.
  intros Htok Hne [Henter Hexit] Hraise.
  rewrite (load_telos_context_run w _ Htok). destruct tok as [|c cs]; [done|]. simpl.
  rewrite Henter. unfold then_local_file.
  destruct Hraise as [Hget|(resp & Hget & Hstatus & Hdecode)]; rewrite Hget.
  - by rewrite Hexit.
  - rewrite bool_decide_eq_true_2 by done. by rewrite Hdecode, Hexit.
Qed.

(** X4.  With [GITHUB_TOKEN] unset or set to the empty string no request
    is sent: the loader reads the two variables, opens the local file and
    ends as the local tier does. *)
Theorem no_credential_no_request `{Builtins} (w : World) :
  environ w !! py "GITHUB_TOKEN" = None ∨
  environ w !! py "GITHUB_TOKEN" = Some (py "") →
  load_telos_context w
    = ([Getenv (py "GITHUB_TOKEN"); Getenv (py "TELOS_REPO"); OpenRead telos_path],
       result_of local_tier w) ∧
  requests (trace load_telos_context w) = [].
Proof.
  intros Htok.
  assert (load_telos_context w
          = (reads_environment ++ [OpenRead telos_path], result_of local_tier w))
    as Hrun.
  { by destruct Htok as [Htok|Htok]; rewrite (load_telos_context_run w _ Htok). }
  unfold trace. by rewrite Hrun.
Qed.

(** X5.  What the loader raises comes from one of three places, each
    outside the [try] block: entering the client, leaving the client (both
    only with a credential), or reading the local file, and then it is not
    [FileNotFoundError].  No exception of the request itself or of JSON,
    base64 or UTF-8 decoding ever leaves the loader. *)
Theorem load_raises_only_outside_try `{Builtins} (w : World) (e : exn) :
  result_of load_telos_context w = Raised e →
  (has_credential w ∧ client_aenter w = Raised e) ∨
  (has_credential w ∧ client_aenter w = Returned () ∧ client_aexit w = Raised e) ∨
  (open_read w telos_path = Raised e ∧ e ≠ FileNotFoundError).
Proof.
  assert (result_of local_tier w = Raised e →
          open_read w telos_path = Raised e ∧ e ≠ FileNotFoundError) as Hlocal.
  { rewrite local_tier_result.
    destruct (open_read w telos_path) as [s|e']; [done|].
    unfold is_FileNotFoundError. case_bool_decide; [done|]. by intros [= ->]. }
  rewrite load_telos_context_result.
  destruct (environ w !! py "GITHUB_TOKEN") as [[|c cs]|] eqn:Htok;
    [auto| |auto].
  assert (has_credential w) as Hcred by by exists (c :: cs).
  rewrite github_tier_result.
  destruct (client_aenter w) as [[]|e0]; [|intros [= ->]; by left].
  destruct (try_block_returns (c :: cs) (configured_repo w) w) as [fetched ->].
  destruct (client_aexit w) as [[]|e1]; [|intros [= ->]; right; by left].
  destruct fetched; [done|auto].
Qed.

(** X6.  A load sends one request when the token is a non-empty string
    and the client is entered without an exception, and none otherwise;
    the request goes to the [contents/telos.md] URL of the configured
    repository, and the headers the loader passes hold one entry,
    [Authorization], with the token behind ["token "]. *)
Theorem load_sends_one_authorized_request `{Builtins} (w : World) :
  requests (trace load_telos_context w) =
  match (environ w !! py "GITHUB_TOKEN" : option pystr), client_aenter w with
  | Some (c :: cs), Returned _ =>
      [(py "https://api.github.com/repos/" ++ configured_repo w
          ++ py "/contents/telos.md",
        {[ py "Authorization" := py "token " ++ c :: cs ]})]
  | _, _ => []
  end.
Proof.
  unfold trace. rewrite (load_telos_context_run w _ eq_refl).
  destruct (environ w !! py "GITHUB_TOKEN") as [[|c cs]|];
    try by destruct (client_aenter w).
  simpl. destruct (client_aenter w) as [[]|e0]; [|done].
  unfold then_local_file.
  destruct (github_answer w (c :: cs)) as [resp|e].
  - case_bool_decide; [destruct (decode_content resp)|];
      by destruct (client_aexit w) as [[]|e1].
  - by destruct (client_aexit w) as [[]|e1].
Qed.

(** X7.  The only file a load ever opens is [/app/context/telos.md], and
    it opens it at most once. *)
Theorem load_opens_only_the_context_file `{Builtins} (w : World) :
  files_opened (trace load_telos_context w) = [] ∨
  files_opened (trace load_telos_context w) = [py "/app/context/telos.md"].
Proof.
  unfold trace. rewrite (load_telos_context_run w _ eq_refl).
  destruct (environ w !! py "GITHUB_TOKEN") as [[|c cs]|]; try (by right).
  simpl. destruct (client_aenter w) as [[]|e0]; [|by left].
  unfold then_local_file.
  destruct (github_answer w (c :: cs)) as [resp|e].
  - case_bool_decide; [destruct (decode_content resp)|];
      destruct (client_aexit w) as [[]|e1]; (by left) || (by right).
  - destruct (client_aexit w) as [[]|e1]; (by left) || (by right).
Qed.

(** X18.  A client that cannot be entered (it is built on line 29,
    outside the [try]) ends the load at once: with a non-empty token the
    exception reaches the caller after the two reads of the environment,
    no request is sent, nothing is printed and the local file is not
    opened, readable or not. *)
Theorem client_failure_leaves_loader `{Builtins} (w : World) (tok : pystr)
    (e : exn) :
  environ w !! py "GITHUB_TOKEN" = Some tok →
  tok ≠ [] →
  client_aenter w = Raised e →
  load_telos_context w
    = ([Getenv (py "GITHUB_TOKEN"); Getenv (py "TELOS_REPO")], Raised e).
Proof.
  intros Htok Hne Henter.
  rewrite (load_telos_context_run w _ Htok). destruct tok as [|c cs]; [done|].
  simpl. by rewrite Henter.
Qed.

(** X19.  What leaving the client raises reaches the caller too: with a
    non-empty token and a client that was entered, the load raises it
    whatever the request was answered, even when the body had decoded,
    and the local file is not opened. *)
Theorem close_failure_leaves_loader `{Builtins} (w : World) (tok : pystr)
    (e : exn) :
  environ w !! py "GITHUB_TOKEN" = Some tok →
  tok ≠ [] →
  client_aenter w = Returned () →
  client_aexit w = Raised e →
  result_of load_telos_context w = Raised e ∧
  files_opened (trace load_telos_context w) = [] ∧
  length (requests (trace load_telos_context w)) = 1.
Proof.
  intros Htok Hne Henter Hexit.
  unfold result_of, trace.
  rewrite (load_telos_context_run w _ Htok). destruct tok as [|c cs]; [done|].
  simpl. rewrite Henter. unfold then_local_file. rewrite Hexit.
  destruct (github_answer w (c :: cs)) as [resp|e'].
  - case_bool_decide; [destruct (decode_content resp)|]; done.
  - done.
Qed.

(** X8.  The body of a 200 answer yields a content exactly when it is a
    JSON object whose [content] is a string that base64 decodes to bytes
    that UTF-8 decode. *)
Theorem decode_content_accepts `{Builtins} (resp : Response) (content : pystr) :
  decode_content resp = Returned content ↔
  ∃ d s raw,
    response_json resp = Returned (JDict d) ∧
    d !! py "content" = Some (JStr s) ∧
    b64decode s = Returned raw ∧
    decode_utf8 raw = Returned content.
Proof.
  unfold decode_content, mbind, outcome_bind. split.
  - destruct (response_json resp) as [data|]; [|done].
    destruct data as [| | | | |l|d]; simpl; try done.
    destruct (d !! py "content") as [item|] eqn:Hitem; [|done].
    destruct item as [| | | |s| |]; simpl; try done.
    destruct (b64decode s) as [raw|] eqn:Hraw; [|done].
    intros Hdec. by exists d, s, raw.
  - intros (d & s & raw & -> & Hitem & Hraw & Hdec). simpl.
    rewrite Hitem. simpl. by rewrite Hraw.
Qed.

(** ** The dispatcher, event by event *)

Section DispatcherRuns.
Context `{Builtins}.
Implicit Types (w : World) (request : MCPRequest).

Lemma eq_str_false_name (name : option json) s :
  eq_str (default JNone name) s = false → name ≠ Some (JStr s).
Proof.
  intros Hf ->. change (eq_str (JStr s) s = false) in Hf.
  by rewrite eq_str_same in Hf.
Qed.

Lemma load_tool_run request w :
  method request = py "tools/call" →
  params request !! py "name" = Some (JStr (py "load_telos_context")) →
  mcp_endpoint request w =
  (trace load_telos_context w,
   match result_of load_telos_context w with
   | Returned context =>
       Returned (Some (with_result (dict [(py "content", JStr context)])))
   | Raised e => Raised e
   end).
Proof.
  intros Hm Hname. rewrite (mcp_endpoint_load_tool _ Hm Hname).
  unfold mbind, IO_bind, trace, result_of.
  destruct (load_telos_context w) as [t [context|e]]; simpl; [|done].
  by rewrite app_nil_r.
Qed.

Lemma filter_tool_run request w :
  method request = py "tools/call" →
  params request !! py "name" = Some (JStr (py "apply_telos_filter")) →
  mcp_endpoint request w =
  (trace load_telos_context w,
   match result_of load_telos_context w with
   | Returned context =>
       match get_method (default (JDict ∅) (params request !! py "arguments"))
                        (py "content") (JStr (py "")) with
       | Returned content =>
           Returned (Some (with_result
             (dict [(py "filtered_content",
                     JStr (filtered_response context content))])))
       | Raised e => Raised e
       end
   | Raised e => Raised e
   end).
Proof.
  intros Hm Hname. rewrite (mcp_endpoint_filter_tool _ Hm Hname).
  unfold mbind, IO_bind, trace, result_of, lift.
  destruct (load_telos_context w) as [t [context|e]]; simpl; [|done].
  destruct (get_method _ _ _); simpl; by rewrite ?app_nil_r.
Qed.

Lemma load_requests_at_most_one w :
  length (requests (trace load_telos_context w)) ≤ 1.
Proof.
  unfold trace. rewrite (load_telos_context_run w _ eq_refl).
  destruct (environ w !! py "GITHUB_TOKEN") as [[|c cs]|]; simpl; try lia.
  destruct (client_aenter w) as [[]|e0]; simpl; [|lia].
  unfold then_local_file.
  destruct (github_answer w (c :: cs)) as [resp|e].
  - case_bool_decide; [destruct (decode_content resp)|];
      destruct (client_aexit w) as [[]|e1]; simpl; lia.
  - destruct (client_aexit w) as [[]|e1]; simpl; lia.
Qed.

End DispatcherRuns.

(** X9.  [apply_telos_filter] calls [get] on [params.arguments] without
    looking at its type: when the value is anything but a JSON object,
    [null] included, the call raises [AttributeError], and it does so
    only after the context has been loaded, with all the events of the
    load. *)
Theorem filter_rejects_non_dict_arguments `{Builtins} (w : World)
    (request : MCPRequest) (arguments : json) (context : pystr) :
  method request = py "tools/call" →
  params request !! py "name" = Some (JStr (py "apply_telos_filter")) →
  params request !! py "arguments" = Some arguments →
  (∀ d, arguments ≠ JDict d) →
  result_of load_telos_context w = Returned context →
  mcp_endpoint request w = (trace load_telos_context w, Raised AttributeError).
Proof.
  intros Hm Hname Hargs Hnot Hload.
  rewrite (filter_tool_run _ _ Hm Hname), Hload, Hargs. simpl.
  destruct arguments; try done. by destruct (Hnot d).
Qed.

(** X10.  The [load_telos_context] tool never reads [params.arguments]:
    two requests that name it run alike, whatever else their [params]
    hold, and each run is one load. *)
Theorem load_tool_ignores_arguments `{Builtins} (w : World)
    (request other : MCPRequest) :
  method request = py "tools/call" →
  params request !! py "name" = Some (JStr (py "load_telos_context")) →
  method other = py "tools/call" →
  params other !! py "name" = Some (JStr (py "load_telos_context")) →
  mcp_endpoint request w = mcp_endpoint other w ∧
  trace (mcp_endpoint request) w = trace load_telos_context w.
Proof.
  intros Hm Hname Hm' Hname'.
  unfold trace at 1.
  by rewrite (load_tool_run request w Hm Hname), (load_tool_run other w Hm' Hname').
Qed.

(** X11.  Of its arguments [apply_telos_filter] reads [content] only:
    two requests whose argument objects agree on [content] run alike,
    whatever [decision_type] or other keys they carry. *)
Theorem filter_reads_content_only `{Builtins} (w : World)
    (request other : MCPRequest) (args args' : gmap pystr json) :
  method request = py "tools/call" →
  params request !! py "name" = Some (JStr (py "apply_telos_filter")) →
  params request !! py "arguments" = Some (JDict args) →
  method other = py "tools/call" →
  params other !! py "name" = Some (JStr (py "apply_telos_filter")) →
  params other !! py "arguments" = Some (JDict args') →
  args !! py "content" = args' !! py "content" →
  mcp_endpoint request w = mcp_endpoint other w.
Proof.
  intros Hm Hname Hargs Hm' Hname' Hargs' Hcontent.
  rewrite (filter_tool_run request w Hm Hname), (filter_tool_run other w Hm' Hname').
  rewrite Hargs, Hargs'. simpl. by rewrite Hcontent.
Qed.

(** X12.  For [arguments.content] the default [""] stands in for a
    missing key only: a [content] that is present and [null] is written
    into the template as the text [None]. *)
Theorem filter_null_content_is_not_absent `{Builtins} (w : World)
    (request : MCPRequest) (args : gmap pystr json) (context : pystr) :
  method request = py "tools/call" →
  params request !! py "name" = Some (JStr (py "apply_telos_filter")) →
  params request !! py "arguments" = Some (JDict args) →
  result_of load_telos_context w = Returned context →
  (args !! py "content" = None →
   ∃ out, result_of (mcp_endpoint request) w
            = Returned (Some (with_result (dict [(py "filtered_content", JStr out)]))) ∧
          contains (py "Content Analysis: " ++ nl) out) ∧
  (args !! py "content" = Some JNone →
   ∃ out, result_of (mcp_endpoint request) w
            = Returned (Some (with_result (dict [(py "filtered_content", JStr out)]))) ∧
          contains (py "Content Analysis: None" ++ nl) out).
Proof.
  intros Hm Hname Hargs Hload.
  unfold result_of. rewrite (filter_tool_run request w Hm Hname), Hload, Hargs.
  simpl. split; intros ->; simpl; eexists; (split; [reflexivity|]).
  - exists (template_head ++ first_200 context ++ py "..." ++ nl ++ indent ++ nl ++ indent),
           (indent ++ nl ++ indent
            ++ py "Alignment Assessment: [This would contain AI-generated alignment analysis]"
            ++ nl ++ indent).
    unfold filtered_response, template_middle, template_tail. simpl format_value.
    by rewrite <- !(assoc_L (++)).
  - exists (template_head ++ first_200 context ++ py "..." ++ nl ++ indent ++ nl ++ indent),
           (indent ++ nl ++ indent
            ++ py "Alignment Assessment: [This would contain AI-generated alignment analysis]"
            ++ nl ++ indent).
    unfold filtered_response, template_middle, template_tail. simpl format_value.
    by rewrite <- !(assoc_L (++)).
Qed.

(** ** The size of the filter's answer *)

Lemma template_length :
  length template_head = 89 ∧ length template_middle = 47 ∧
  length template_tail = 113.
Proof. by vm_compute. Qed.

Lemma template_middle_dots :
  template_middle
  = py "..." ++ nl ++ indent ++ nl ++ indent ++ py "Content Analysis: ".
Proof. reflexivity. Qed.

(** X13.  The text the filter builds has 249 fixed characters, at most
    200 characters of context and the characters of the content: its
    length does not grow with the context document. *)
Theorem filtered_response_length `{Builtins} (context : pystr) (content : json) :
  length (filtered_response context content)
  = 249 + 200 `min` length context + length (format_value content).
Proof.
  destruct template_length as (Hhead & Hmiddle & Htail).
  unfold filtered_response.
  rewrite !length_app, first_200_length, Hhead, Hmiddle, Htail. lia.
Qed.

(** X14.  What follows the 200th character of the context never reaches
    the answer. *)
Theorem filtered_response_ignores_tail `{Builtins} (context extra : pystr)
    (content : json) :
  200 ≤ length context →
  filtered_response (context ++ extra) content
  = filtered_response context content.
Proof.
  intros Hlen. unfold filtered_response, first_200.
  by rewrite take_app_le.
Qed.

(** X15.  A context of at most 200 characters is written whole, and the
    three dots follow it all the same, although nothing was cut. *)
Theorem short_context_still_dotted `{Builtins} (context : pystr) (content : json) :
  length context ≤ 200 →
  contains (py "Personal Context Applied: " ++ context ++ py "..." ++ nl)
           (filtered_response context content).
Proof.
  intros Hlen.
  exists (nl ++ indent ++ py "TELOS-Filtered Analysis:" ++ nl ++ indent ++ nl ++ indent),
         (indent ++ nl ++ indent ++ py "Content Analysis: "
          ++ format_value content ++ template_tail).
  unfold filtered_response, first_200, template_head.
  rewrite template_middle_dots, take_ge by done.
  by rewrite <- !(assoc_L (++)).
Qed.

(** ** What a request can come to *)


(** X17.  One request runs the loader at most once: its events are none
    at all or those of one load, so that it sends at most one HTTP
    request. *)
Theorem request_runs_at_most_one_load `{Builtins} (w : World) (request : MCPRequest) :
  (trace (mcp_endpoint request) w = [] ∨
   trace (mcp_endpoint request) w = trace load_telos_context w) ∧
  length (requests (trace (mcp_endpoint request) w)) ≤ 1.
Proof.
  assert (trace (mcp_endpoint request) w = [] ∨
          trace (mcp_endpoint request) w = trace load_telos_context w) as Hev.
  { destruct (decide (method request = py "tools/list")) as [Hlist|Hlist].
    { left. unfold trace. by rewrite (mcp_endpoint_list _ Hlist). }
    destruct (decide (method request = py "tools/call")) as [Hcall|Hcall];
      [|left; unfold trace; by rewrite (mcp_endpoint_other _ Hlist Hcall)].
    destruct (eq_str (default JNone (params request !! py "name"))
                (py "load_telos_context")) eqn:Hload.
    { right. apply eq_str_true in Hload. unfold trace at 1.
      rewrite (load_tool_run request w Hcall); [done|].
      destruct (params request !! py "name"); simpl in Hload; by subst. }
    destruct (eq_str (default JNone (params request !! py "name"))
                (py "apply_telos_filter")) eqn:Hfilter.
    { right. apply eq_str_true in Hfilter. unfold trace at 1.
      rewrite (filter_tool_run request w Hcall); [done|].
      destruct (params request !! py "name"); simpl in Hfilter; by subst. }
    left. unfold trace.
    by rewrite (mcp_endpoint_no_tool request Hcall)
      by by apply eq_str_false_name. }
  split; [done|].
  destruct Hev as [-> | ->]; [simpl; lia|apply load_requests_at_most_one].
Qed.

(** * The handlers on concrete worlds *)

#[local] Existing Instance test_builtins.

(** ** Runs of the loader *)

Example no_context_text :
  no_context = py "# TELOS Context
No personal context loaded. Please set up your TELOS file.".
Proof. reflexivity. Qed.

Example load_from_github :
  result_of load_telos_context world_github = Returned (py "hi").
Proof. vm_compute. reflexivity. Qed.

(** Without network the loader reads the environment twice, sends one
    request, prints the error and opens the file. *)
Example load_offline_trace :
  trace load_telos_context world_offline =
  [ Getenv (py "GITHUB_TOKEN");
    Getenv (py "TELOS_REPO");
    HttpGet (py "https://api.github.com/repos/your-username/personal-context/contents/telos.md")
            {[ py "Authorization" := py "token ghp_x" ]};
    PrintError (py "Error loading from GitHub: ") ConnectError;
    OpenRead (py "/app/context/telos.md") ].
Proof. vm_compute. reflexivity. Qed.

(** C1, the claim as it was stated fails, in two ways.  With no
    credential and a local file that exists but may not be read, [open]
    raises [PermissionError], which [except FileNotFoundError] does not
    catch.  With a credential and a proxy setting the client refuses, the
    client raises [ValueError] when it is built, outside the [try], and
    the loader raises it although the local file is readable. *)
Lemma load_telos_context_raises_when_denied :
  (result_of load_telos_context world_denied = Raised PermissionError ∧
   ¬ ∃ s : pystr, result_of load_telos_context world_denied = Returned s) ∧
  (open_read world_bad_proxy telos_path = Returned (py "# My mission") ∧
   result_of load_telos_context world_bad_proxy = Raised ValueError ∧
   ¬ ∃ s : pystr, result_of load_telos_context world_bad_proxy = Returned s).
Proof.
  assert (result_of load_telos_context world_denied = Raised PermissionError)
    as Hrun by (vm_compute; reflexivity).
  assert (result_of load_telos_context world_bad_proxy = Raised ValueError)
    as Hrun' by (vm_compute; reflexivity).
  split_and!; try done.
  - intros [s Hs]. rewrite Hrun in Hs. discriminate Hs.
  - intros [s Hs]. rewrite Hrun' in Hs. discriminate Hs.
Qed.

Lemma load_telos_context_returns_witness :
  (has_credential world_offline → client_works world_offline) ∧
  (∀ e, open_read world_offline telos_path = Raised e → e = FileNotFoundError) ∧
  ∃ s : pystr, result_of load_telos_context world_offline = Returned s.
Proof.
  assert (has_credential world_offline → client_works world_offline) as Hclient.
  { intros _. split; reflexivity. }
  assert (∀ e, open_read world_offline telos_path = Raised e
               → e = FileNotFoundError) as Hfile.
  { intros e Hread. vm_compute in Hread. discriminate Hread. }
  split_and!; [exact Hclient|exact Hfile|].
  exact (load_telos_context_returns world_offline Hclient Hfile).
Defined.

(** C7, the claim as it was stated fails: the request raises inside a
    client that works, so the remote fetch has failed, and the local file
    exists but may not be read; the loader raises [PermissionError]
    instead of returning the file. *)
Lemma remote_failure_then_denied_raises :
  remote_fetch_fails world_offline_denied ∧
  result_of load_telos_context world_offline_denied = Raised PermissionError ∧
  ¬ ∃ s : pystr, result_of load_telos_context world_offline_denied = Returned s.
Proof.
  assert (result_of load_telos_context world_offline_denied
          = Raised PermissionError) as Hrun by (vm_compute; reflexivity).
  split_and!; [|done|].
  - by apply (network_error _ (py "ghp_x") ConnectError).
  - intros [s Hs]. rewrite Hrun in Hs. discriminate Hs.
Qed.

Lemma remote_failure_falls_back_witness :
  remote_fetch_fails world_offline ∧
  result_of load_telos_context world_offline = Returned (py "# My mission").
Proof.
  assert (remote_fetch_fails world_offline) as Hfail.
  { apply (network_error _ (py "ghp_x") ConnectError);
      [reflexivity|split; reflexivity|reflexivity]. }
  split; [exact Hfail|].
  apply (remote_failure_falls_back world_offline Hfail).
  reflexivity.
Defined.

(** ** Runs of the dispatcher *)

Example health_check_run (w : World) :
  health_check w
  = ([], Returned (dict [(py "status", JStr (py "healthy"));
                         (py "service", JStr (py "telos-mcp"))])).
Proof. reflexivity. Qed.

(** [POST /mcp {"method": "unknown/x"}] *)
Example unknown_method_run :
  mcp_endpoint (bare_request (py "unknown/x")) world_bare
  = ([], Returned (Some {|
       result := JNone;
       error := Some (dict_of [(py "code", JInt (-32601));
                               (py "message", JStr (py "Method unknown/x not found"))]) |})).
Proof. vm_compute. reflexivity. Qed.

(** The text the filter builds from a context and an integer content. *)
Example filtered_response_text :
  filtered_response (py "# My mission") (JInt (-42)) = py "
            TELOS-Filtered Analysis:
            
            Personal Context Applied: # My mission...
            
            Content Analysis: -42
            
            Alignment Assessment: [This would contain AI-generated alignment analysis]
            ".
Proof. vm_compute. reflexivity. Qed.

Example filtered_response_has_content :
  containsb (py "ship it")
    (filtered_response (py "# My mission") (JStr (py "ship it"))) = true.
Proof. vm_compute. reflexivity. Qed.

(** [arguments] that is not a dict has no [get]: the filter raises, after
    the context has been loaded. *)
Example filter_arguments_not_a_dict :
  result_of (mcp_endpoint (call_request (py "apply_telos_filter") JNone)) world_offline
  = Raised AttributeError.
Proof. vm_compute. reflexivity. Qed.

Lemma unknown_tool_empty_envelope_witness :
  mcp_endpoint unknown_tool_request world_bare = ([], Returned None) ∧
  result_populated None = false ∧ error_populated None = false.
Proof.
  apply (unknown_tool_empty_envelope world_bare unknown_tool_request).
  - reflexivity.
  - intros Hname. vm_compute in Hname. discriminate Hname.
  - intros Hname. vm_compute in Hname. discriminate Hname.
Defined.

Lemma unknown_method_error_witness :
  ∃ err message,
    mcp_endpoint (bare_request (py "unknown/x")) world_bare
      = ([], Returned (Some {| result := JNone; error := Some err |})) ∧
    err = dict_of [(py "code", JInt (-32601)); (py "message", JStr message)] ∧
    err !! py "code" = Some (JInt (-32601)) ∧
    err !! py "message" = Some (JStr message) ∧
    message = py "Method " ++ py "unknown/x" ++ py " not found" ∧
    contains (py "unknown/x") message.
Proof.
  apply (unknown_method_error world_bare (bare_request (py "unknown/x"))).
  - intros Hm. vm_compute in Hm. discriminate Hm.
  - intros Hm. vm_compute in Hm. discriminate Hm.
Defined.



Lemma tools_list_static_witness :
  mcp_endpoint (bare_request (py "tools/list")) world_bare
    = ([], Returned (Some {| result := tools_listing; error := None |})) ∧
  tool_names tools_listing
    = [Some (JStr (py "load_telos_context")); Some (JStr (py "apply_telos_filter"))].
Proof.
  apply (tools_list_static world_bare (bare_request (py "tools/list"))).
  reflexivity.
Defined.

Lemma call_without_name_witness :
  default JNone (params (bare_request (py "tools/call")) !! py "name") = JNone ∧
  mcp_endpoint (bare_request (py "tools/call")) world_bare = ([], Returned None) ∧
  mcp_endpoint (bare_request (py "tools/call")) world_bare
    = mcp_endpoint unknown_tool_request world_bare.
Proof.
  apply (call_without_name world_bare (bare_request (py "tools/call"))
           unknown_tool_request).
  - reflexivity.
  - reflexivity.
  - reflexivity.
  - intros Hname. vm_compute in Hname. discriminate Hname.
  - intros Hname. vm_compute in Hname. discriminate Hname.
Defined.



(** ** Runs for the further properties *)

Lemma remote_success_skips_file_witness :
  load_telos_context world_github
    = ([Getenv (py "GITHUB_TOKEN"); Getenv (py "TELOS_REPO");
        HttpGet (telos_url (configured_repo world_github)) (auth_headers (py "ghp_x"))],
       Returned (py "hi")) ∧
  files_opened (trace load_telos_context world_github) = [].
Proof.
  apply (remote_success_skips_file world_github (py "ghp_x") telos_response).
  - reflexivity.
  - discriminate.
  - split; reflexivity.
  - vm_compute. reflexivity.
  - reflexivity.
  - vm_compute. reflexivity.
Defined.

Lemma other_status_falls_back_silently_witness :
  errors_printed (trace load_telos_context world_no_content) = [].
Proof.
  apply (other_status_falls_back_silently world_no_content (py "ghp_x")
           {| status_code := 204; response_json := Raised JSONDecodeError |}).
  - reflexivity.
  - discriminate.
  - split; reflexivity.
  - reflexivity.
  - simpl. lia.
Defined.

Lemma remote_exception_printed_then_file_witness :
  load_telos_context world_offline
    = ([Getenv (py "GITHUB_TOKEN"); Getenv (py "TELOS_REPO");
        HttpGet (telos_url (configured_repo world_offline)) (auth_headers (py "ghp_x"));
        PrintError (py "Error loading from GitHub: ") ConnectError;
        OpenRead telos_path],
       result_of local_tier world_offline).
Proof.
  apply (remote_exception_printed_then_file world_offline (py "ghp_x") ConnectError).
  - reflexivity.
  - discriminate.
  - split; reflexivity.
  - left. reflexivity.
Defined.

Lemma no_credential_no_request_witness :
  requests (trace load_telos_context world_empty_token) = [].
Proof.
  apply (no_credential_no_request world_empty_token).
  right. reflexivity.
Defined.

Lemma load_raises_only_outside_try_witness :
  (has_credential world_bad_proxy ∧
   client_aenter world_bad_proxy = Raised ValueError) ∨
  (has_credential world_bad_proxy ∧
   client_aenter world_bad_proxy = Returned () ∧
   client_aexit world_bad_proxy = Raised ValueError) ∨
  (open_read world_bad_proxy telos_path = Raised ValueError ∧
   ValueError ≠ FileNotFoundError).
Proof.
  apply (load_raises_only_outside_try world_bad_proxy ValueError).
  vm_compute. reflexivity.
Defined.

Lemma client_failure_leaves_loader_witness :
  load_telos_context world_bad_proxy
    = ([Getenv (py "GITHUB_TOKEN"); Getenv (py "TELOS_REPO")], Raised ValueError).
Proof.
  apply (client_failure_leaves_loader world_bad_proxy (py "ghp_x") ValueError).
  - reflexivity.
  - discriminate.
  - reflexivity.
Defined.

Lemma close_failure_leaves_loader_witness :
  result_of load_telos_context world_bad_close = Raised OSError ∧
  files_opened (trace load_telos_context world_bad_close) = [] ∧
  length (requests (trace load_telos_context world_bad_close)) = 1.
Proof.
  apply (close_failure_leaves_loader world_bad_close (py "ghp_x") OSError).
  - reflexivity.
  - discriminate.
  - reflexivity.
  - reflexivity.
Defined.

Lemma decode_content_accepts_witness :
  decode_content telos_response = Returned (py "hi").
Proof.
  apply (decode_content_accepts telos_response (py "hi")).
  exists (dict_of [(py "content", JStr (py "aGk="))]), (py "aGk="), [Byte.x68; Byte.x69].
  split_and!; vm_compute; reflexivity.
Defined.

Lemma filter_rejects_non_dict_arguments_witness :
  mcp_endpoint (call_request (py "apply_telos_filter") JNone) world_offline
    = (trace load_telos_context world_offline, Raised AttributeError).
Proof.
  apply (filter_rejects_non_dict_arguments world_offline
           (call_request (py "apply_telos_filter") JNone) JNone (py "# My mission")).
  - reflexivity.
  - reflexivity.
  - reflexivity.
  - discriminate.
  - vm_compute. reflexivity.
Defined.

Lemma load_tool_ignores_arguments_witness :
  mcp_endpoint load_request world_offline
    = mcp_endpoint (call_request (py "load_telos_context") (JInt 7)) world_offline ∧
  trace (mcp_endpoint load_request) world_offline
    = trace load_telos_context world_offline.
Proof.
  apply (load_tool_ignores_arguments world_offline load_request
           (call_request (py "load_telos_context") (JInt 7))); reflexivity.
Defined.

Lemma filter_reads_content_only_witness :
  mcp_endpoint (filter_request (JStr (py "ship it"))) world_offline
    = mcp_endpoint (typed_filter_request (JStr (py "ship it")) (JStr (py "career")))
        world_offline.
Proof.
  apply (filter_reads_content_only world_offline
           (filter_request (JStr (py "ship it")))
           (typed_filter_request (JStr (py "ship it")) (JStr (py "career")))
           (dict_of [(py "content", JStr (py "ship it"))])
           (dict_of [(py "content", JStr (py "ship it"));
                     (py "decision_type", JStr (py "career"))]));
    reflexivity.
Defined.

Lemma filter_null_content_is_not_absent_witness :
  ∃ out,
    result_of (mcp_endpoint (filter_request JNone)) world_offline
      = Returned (Some (with_result (dict [(py "filtered_content", JStr out)]))) ∧
    contains (py "Content Analysis: None" ++ nl) out.
Proof.
  apply (filter_null_content_is_not_absent world_offline (filter_request JNone)
           (dict_of [(py "content", JNone)]) (py "# My mission")).
  - reflexivity.
  - reflexivity.
  - reflexivity.
  - vm_compute. reflexivity.
  - reflexivity.
Defined.

Lemma filtered_response_ignores_tail_witness :
  filtered_response (long_context ++ py "beyond") (JStr (py "ship it"))
  = filtered_response long_context (JStr (py "ship it")).
Proof.
  apply (filtered_response_ignores_tail long_context (py "beyond")).
  vm_compute. lia.
Defined.

Lemma short_context_still_dotted_witness :
  contains (py "Personal Context Applied: " ++ py "# My mission" ++ py "..." ++ nl)
           (filtered_response (py "# My mission") (JStr (py "ship it"))).
Proof.
  apply (short_context_still_dotted (py "# My mission")).
  vm_compute. lia.
Defined.

